(** * metassert: a shallow embedding of [include/metassert.h]

    The header is a set of C++ templates.  Template type parameters become
    Rocq type parameters, and the implicit requirements the templates place
    on them ("[os << x] compiles", "[a op b] compiles and can be tested
    with [!]") become type classes.

    Conventions of the embedding:
    - a [const T&] is a [ref]: the object referred to together with the
      state of its storage; reading through a reference whose object has
      been destroyed is undefined behaviour, like division by zero and
      signed overflow;
    - operand types are value-like: [a op b] and [os << a] are functions
      of the operand values;
    - the string stream that [METASSERT] declares is new, hence in the
      initial formatting state; [std::cout] belongs to the program, and
      its state is part of the world.  What an inserter of the standard
      library appends in a given state is a parameter ([Ostream]). *)

From Stdlib Require Import ZArith NArith Lia List String Ascii Bool.
From Stdlib Require Import Decimal DecimalString.
From Stdlib Require Import Hexadecimal HexadecimalString.
Import ListNotations.

Open Scope string_scope.

(* ------------------------------------------------------------------ *)
(** ** Text *)

Module Text.

(** The two characters that cannot be written inside a string literal. *)
Definition LF : ascii := ascii_of_nat 10.
Definition DQUOTE : ascii := ascii_of_nat 34.

Definition endl_text : string := String LF EmptyString.
Definition dquote : string := String DQUOTE EmptyString.

(** Number of line terminators in a text. *)
Fixpoint newlines (s : string) : nat :=
  match s with
  | EmptyString => 0
  | String c s' => (if Ascii.eqb c LF then 1 else 0) + newlines s'
  end.

(** [out] is exactly one line: some text free of line terminators,
    followed by one line terminator. *)
Definition one_line (out : string) : Prop :=
  exists l, out = l ++ endl_text /\ newlines l = 0.

(** [needle] occurs in [hay]. *)
Definition occurs_in (needle hay : string) : Prop :=
  exists pre post, hay = pre ++ needle ++ post.

(** Numerals. *)
Definition decimal_of_unsigned (n : N) : string :=
  DecimalString.NilZero.string_of_uint (N.to_uint n).

Definition decimal_of_int (z : Z) : string :=
  DecimalString.NilZero.string_of_int (Z.to_int z).

Definition hexadecimal_of_unsigned (n : N) : string :=
  HexadecimalString.NilZero.string_of_uint (N.to_hex_uint n).

End Text.

Import Text.

(* ------------------------------------------------------------------ *)
(** ** C++ evaluation *)

Module Cpp.

(** The ways an evaluation in this header can be undefined. *)
Inductive undefined : Type :=
| DivisionByZero
| SignedOverflow
| DanglingReference.

Inductive outcome (A : Type) : Type :=
| Value (a : A)
| Undefined (u : undefined).

Arguments Value {A} a.
Arguments Undefined {A} u.

Definition outcome_bind {A B : Type} (m : outcome A) (k : A -> outcome B)
    : outcome B :=
  match m with
  | Value a => k a
  | Undefined u => Undefined u
  end.

(** *** References and lifetimes *)

Inductive storage : Type :=
| Named        (* a variable that outlives the statement *)
| Temporary    (* a temporary: destroyed at the end of the full-expression *)
| Ended.       (* an object that has been destroyed *)

(** A [const T&]: the object it was bound to, and the state of that
    object's storage. *)
Record ref (T : Type) : Type := Ref
  { referent : T;
    storage_of : storage }.

Arguments Ref {T} referent storage_of.
Arguments referent {T} r.
Arguments storage_of {T} r.

Definition alive {T : Type} (r : ref T) : bool :=
  match storage_of r with
  | Ended => false
  | _ => true
  end.

(** Using the object a reference refers to. *)
Definition read {T : Type} (r : ref T) : outcome T :=
  if alive r then Value (referent r) else Undefined DanglingReference.

(** A reference to a local object of a function, seen after the function
    has returned. *)
Definition after_return {T : Type} (local : T) : ref T :=
  Ref local Ended.

(** A reference seen after the full-expression in which it was bound. *)
Definition after_full_expression {T : Type} (r : ref T) : ref T :=
  match storage_of r with
  | Temporary => Ref (referent r) Ended
  | _ => r
  end.

(** *** Operators *)

(** The binary operator tokens handed to [DEFINE_OPERATOR]. *)
Inductive Token : Type :=
| Plus | Minus | Star | Slash
| EqEq | NotEq | Less | LessEq | Greater | GreaterEq.

(** [#op]: the preprocessor's stringification of an operator token. *)
Definition stringize (op : Token) : string :=
  match op with
  | Plus => "+"
  | Minus => "-"
  | Star => "*"
  | Slash => "/"
  | EqEq => "=="
  | NotEq => "!="
  | Less => "<"
  | LessEq => "<="
  | Greater => ">"
  | GreaterEq => ">="
  end.

(** [os << x] compiles for [T]; [put_to x] is the text it inserts into a
    stream in the initial formatting state. *)
Class Streamable (T : Type) : Type :=
  { put_to : T -> string }.

(** [a op b] compiles for [a : T1] and [b : T2], and its result can be
    tested with [!]. *)
Class Applicable (op : Token) (T1 T2 : Type) : Type :=
  { result_of : Type;                       (* decltype(a op b) *)
    apply : T1 -> T2 -> outcome result_of;  (* a op b *)
    to_bool : result_of -> bool }.          (* conversion to bool *)

Arguments result_of op T1 T2 {_}.
Arguments apply op {T1 T2 _} a b.
Arguments to_bool op {T1 T2 _} r.

(** Insertion into a stream in the initial formatting state, as a
    function on the stream's contents. *)
Definition insert {T : Type} `{Streamable T} (os : string) (x : T) : string :=
  os ++ put_to x.

(** Character arrays: string literals. *)
#[global] Instance Streamable_literal : Streamable string :=
  { put_to := fun s => s }.

(** *** [int]: 32 bits, two's complement range, overflow undefined *)

Definition int : Type := Z.
Definition INT_MIN : int := (- 2 ^ 31)%Z.
Definition INT_MAX : int := (2 ^ 31 - 1)%Z.

Definition int_range (z : Z) : bool :=
  ((INT_MIN <=? z) && (z <=? INT_MAX))%Z.

Definition int_arith (z : Z) : outcome int :=
  if int_range z then Value z else Undefined SignedOverflow.

Definition int_result (op : Token) : Type :=
  match op with
  | Plus | Minus | Star | Slash => int
  | _ => bool
  end.

Definition int_apply (op : Token) : int -> int -> outcome (int_result op) :=
  match op return int -> int -> outcome (int_result op) with
  | Plus => fun a b => int_arith (a + b)
  | Minus => fun a b => int_arith (a - b)
  | Star => fun a b => int_arith (a * b)
  | Slash => fun a b =>
      if (b =? 0)%Z then Undefined DivisionByZero
      else int_arith (Z.quot a b)
  | EqEq => fun a b => Value (a =? b)%Z
  | NotEq => fun a b => Value (negb (a =? b)%Z)
  | Less => fun a b => Value (a <? b)%Z
  | LessEq => fun a b => Value (a <=? b)%Z
  | Greater => fun a b => Value (a >? b)%Z
  | GreaterEq => fun a b => Value (a >=? b)%Z
  end.

Definition int_to_bool (op : Token) : int_result op -> bool :=
  match op return int_result op -> bool with
  | Plus | Minus | Star | Slash => fun z => negb (z =? 0)%Z
  | _ => fun b => b
  end.

#[global] Instance Streamable_int : Streamable int :=
  { put_to := decimal_of_int }.

#[global] Instance Applicable_int (op : Token) : Applicable op int int :=
  { result_of := int_result op;
    apply := int_apply op;
    to_bool := int_to_bool op }.

(** *** [std::string]: compared by contents, inserted verbatim *)

Definition std_string : Type := string.

#[global] Instance Streamable_std_string : Streamable std_string :=
  { put_to := fun s => s }.

#[global] Instance Applicable_std_string_EqEq :
  Applicable EqEq std_string std_string :=
  { result_of := bool;
    apply := fun a b => Value (String.eqb a b);
    to_bool := fun b => b }.

#[global] Instance Applicable_std_string_NotEq :
  Applicable NotEq std_string std_string :=
  { result_of := bool;
    apply := fun a b => Value (negb (String.eqb a b));
    to_bool := fun b => b }.

(** *** The state of an output stream *)

(** The inserters of the standard library are not part of this
    repository.  They are taken as a parameter: for a stream in state
    [s], the characters an insertion appends and the state it leaves the
    stream in. *)
Class Ostream (State : Type) : Type :=
  { put_chars : State -> string -> string * State;
    put_unsigned : State -> N -> string * State;
    put_endl : State -> string * State }.

(** A stream that inserts character arrays verbatim and unsigned numbers
    in decimal, that ends lines, and that stays so: what a stream in its
    initial state does. *)
Definition plain {State : Type} `{Ostream State} (s : State) : Prop :=
  (forall t, put_chars s t = (t, s))
  /\ (forall n, put_unsigned s n = (decimal_of_unsigned n, s))
  /\ put_endl s = (endl_text, s).

(** One instance, used for examples: a stream whose state differs from
    the initial one at most by the manipulator [std::hex]. *)
Inductive basefield : Type :=
| dec
| hex.

#[global] Instance Ostream_basefield : Ostream basefield :=
  { put_chars := fun s t => (t, s);
    put_unsigned := fun s n =>
      (match s with
       | dec => decimal_of_unsigned n
       | hex => hexadecimal_of_unsigned n
       end, s);
    put_endl := fun s => (endl_text, s) }.

End Cpp.

Import Cpp.

Declare Scope outcome_scope.
Delimit Scope outcome_scope with outcome.
Notation "x <- m ;; k" := (outcome_bind m (fun x => k))
  (at level 61, m at next level, right associativity) : outcome_scope.

(* ------------------------------------------------------------------ *)
(** ** The process around an assertion *)

Module Process.

Section World.

(** The state of [std::cout]. *)
Variable State : Type.
Context {OS : Ostream State}.

(** Everything the header never mentions: variables, files, the exit
    status, the environment. *)
Variable Rest : Type.

Record World : Type := mkWorld
  { cout : string;         (* what has been written to standard output *)
    cout_state : State;    (* the formatting state of std::cout *)
    rest : Rest }.

(** A statement with effects. *)
Definition Run (A : Type) : Type := World -> outcome (A * World).

Definition ret {A : Type} (a : A) : Run A :=
  fun w => Value (a, w).

Definition bind {A B : Type} (m : Run A) (k : A -> Run B) : Run B :=
  fun w =>
    match m w with
    | Value (a, w') => k a w'
    | Undefined u => Undefined u
    end.

(** An evaluation that does not touch the world. *)
Definition lift {A : Type} (m : outcome A) : Run A :=
  fun w =>
    match m with
    | Value a => Value (a, w)
    | Undefined u => Undefined u
    end.

(** One insertion into [std::cout]. *)
Definition cout_put (inserter : State -> string * State) : Run unit :=
  fun w =>
    let (text, s) := inserter (cout_state w) in
    Value (tt, mkWorld (cout w ++ text) s (rest w)).

(** [std::cout << chars] *)
Definition cout_chars (t : string) : Run unit :=
  cout_put (fun s => put_chars s t).

(** [std::cout << n] for an [unsigned] *)
Definition cout_unsigned (n : N) : Run unit :=
  cout_put (fun s => put_unsigned s n).

(** [std::cout << std::endl] *)
Definition cout_endl : Run unit :=
  cout_put put_endl.

End World.

Arguments mkWorld {State Rest} cout cout_state rest.
Arguments cout {State Rest} w.
Arguments cout_state {State Rest} w.
Arguments rest {State Rest} w.
Arguments ret {State Rest A} a w.
Arguments bind {State Rest A B} m k w.
Arguments lift {State Rest A} m w.
Arguments cout_put {State Rest} inserter w.
Arguments cout_chars {State OS Rest} t w.
Arguments cout_unsigned {State OS Rest} n w.
Arguments cout_endl {State OS Rest} w.

End Process.

Import Process.

Declare Scope run_scope.
Delimit Scope run_scope with run.
Notation "x <- m ;; k" := (bind m (fun x => k))
  (at level 61, m at next level, right associativity) : run_scope.
Notation "m ;; k" := (bind m (fun _ => k))
  (at level 61, right associativity) : run_scope.

(* ------------------------------------------------------------------ *)
(** ** namespace metassert *)

Module metassert.

Definition unsigned : Type := N.

(** One use of [DEFINE_OPERATOR(op, name)].  It declares the functor
    struct [name<T1, T2>], its stream insertion and the overload of
    [op] on expression builders; all three are functions of this
    record below. *)
Record Operator : Type := DEFINE_OPERATOR
  { op : Token;
    name : string }.

(** The struct [name<T1, T2>]: it has no members, hence one value. *)
Inductive functor (D : Operator) : Type :=
| functor_object.

Arguments functor_object {D}.

(** [auto operator()(const T1& a, const T2& b) const -> decltype(a op b)
     { return a op b; }] *)
Definition functor_call {T1 T2 : Type} {D : Operator}
    `{Applicable (op D) T1 T2}
    (o : functor D) (a : ref T1) (b : ref T2)
    : outcome (result_of (op D) T1 T2) :=
  (x <- read a ;;
   y <- read b ;;
   apply (op D) x y)%outcome.

(** [std::ostream& operator<<(std::ostream& os, const name<T1, T2>& o)
     { os << #op; return os; }] *)
#[global] Instance Streamable_functor (D : Operator) : Streamable (functor D) :=
  { put_to := fun _ => insert EmptyString (stringize (op D)) }.

(** [class Expression<Lhs, Rhs, Op>], with its members
    [const Lhs& m_lhs; const Rhs& m_rhs; Op m_op;] and its constructor. *)
Record Expression (Lhs Rhs : Type) (D : Operator) : Type := mkExpression
  { m_lhs : ref Lhs;
    m_rhs : ref Rhs;
    m_op : functor D }.

Arguments mkExpression {Lhs Rhs D} m_lhs m_rhs m_op.
Arguments m_lhs {Lhs Rhs D} e.
Arguments m_rhs {Lhs Rhs D} e.
Arguments m_op {Lhs Rhs D} e.

(** [operator ResultType() const { return m_op(m_lhs, m_rhs); }] *)
Definition Expression_ResultType {Lhs Rhs : Type} {D : Operator}
    `{Applicable (op D) Lhs Rhs}
    (e : Expression Lhs Rhs D) : outcome (result_of (op D) Lhs Rhs) :=
  functor_call (m_op e) (m_lhs e) (m_rhs e).

(** [friend std::ostream& operator<<(std::ostream& stream,
     const Expression& expr)], for a stream in the initial formatting
    state. *)
Definition Expression_insert {Lhs Rhs : Type} {D : Operator}
    `{Streamable Lhs} `{Streamable Rhs}
    (stream : string) (expr : Expression Lhs Rhs D) : outcome string :=
  (lhs <- read (m_lhs expr) ;;
   let stream := insert (insert (insert (insert stream lhs) " ")
                           (m_op expr)) " " in
   rhs <- read (m_rhs expr) ;;
   Value (insert stream rhs))%outcome.

(** [class ExpressionBuilder<Lhs>], with its member [const Lhs& m_lhs;]. *)
Module ExpressionBuilder.

Record t (Lhs : Type) : Type := make
  { m_lhs : ref Lhs }.

Arguments make {Lhs} m_lhs.
Arguments m_lhs {Lhs} t.

(** [const Lhs& GetExpression() { return m_lhs; }] *)
Definition GetExpression {Lhs : Type} (b : t Lhs) : ref Lhs := m_lhs b.

End ExpressionBuilder.

(** The overload [operator op (ExpressionBuilder<Lhs>& builder,
    const Rhs& rhs)] declared by [DEFINE_OPERATOR(op, name)].  [expr] is
    a local object of the overload.  The builder made from it keeps a
    reference to it ([std::move] is only a cast, and the builder's
    constructor takes a [const Lhs&]); the builder is returned by value,
    and [expr] is destroyed when the overload returns. *)
Definition operator_ {Lhs Rhs : Type} (D : Operator)
    (builder : ExpressionBuilder.t Lhs) (rhs : ref Rhs)
    : ExpressionBuilder.t (Expression Lhs Rhs D) :=
  let expr :=
    mkExpression (ExpressionBuilder.GetExpression builder) rhs
                 (@functor_object D) in
  ExpressionBuilder.make (after_return expr).

(** The expression builder operators. *)
Definition Add : Operator := DEFINE_OPERATOR Plus "Add".
Definition Subtract : Operator := DEFINE_OPERATOR Minus "Subtract".
Definition Multiply : Operator := DEFINE_OPERATOR Star "Multiply".
Definition Divide : Operator := DEFINE_OPERATOR Slash "Divide".
Definition Equal : Operator := DEFINE_OPERATOR EqEq "Equal".
Definition NotEqual : Operator := DEFINE_OPERATOR NotEq "NotEqual".
Definition LessThan : Operator := DEFINE_OPERATOR Less "LessThan".
Definition LessOrEqual : Operator := DEFINE_OPERATOR LessEq "LessOrEqual".
Definition GreaterThan : Operator := DEFINE_OPERATOR Greater "GreaterThan".
Definition GreaterOrEqual : Operator :=
  DEFINE_OPERATOR GreaterEq "GreaterOrEqual".

Definition operators : list Operator :=
  [Add; Subtract; Multiply; Divide; Equal; NotEqual;
   LessThan; LessOrEqual; GreaterThan; GreaterOrEqual].

(** [struct Build { };] *)
Inductive Build : Type :=
| Build_object.

(** [ExpressionBuilder<Lhs> operator->* (Build&, const Lhs& lhs)] *)
Definition operator_arrow_star {Lhs : Type} (_ : Build) (lhs : ref Lhs)
    : ExpressionBuilder.t Lhs :=
  ExpressionBuilder.make lhs.

(** [inline void AssertFail(const std::string& msg, const char file[],
     unsigned line)] *)
Definition AssertFail {State : Type} {OS : Ostream State} {Rest : Type}
    (msg : std_string) (file : string) (line : unsigned)
    : Run State Rest unit :=
  (cout_chars "Failed: " ;;
   cout_chars msg ;;
   cout_chars ", in file " ;;
   cout_chars file ;;
   cout_chars " line " ;;
   cout_unsigned line ;;
   cout_endl)%run.

End metassert.

Import metassert.

(* ------------------------------------------------------------------ *)
(** ** The macro *)

(** [!_expr_]: the expression converts to its result type, which is then
    negated as a condition. *)
Definition operator_not {Lhs Rhs : Type} {D : Operator}
    `{Applicable (op D) Lhs Rhs}
    (e : Expression Lhs Rhs D) : outcome bool :=
  (r <- Expression_ResultType e ;;
   Value (negb (to_bool (op D) r)))%outcome.

(** Line 153 on the new string stream: the quoted text [#expr], then an
    opening parenthesis after a space, [_expr_] and a closing
    parenthesis; and [_stream_.str()]. *)
Definition failure_message {Lhs Rhs : Type} {D : Operator}
    `{Streamable Lhs} `{Streamable Rhs}
    (expr_text : string) (_expr_ : Expression Lhs Rhs D) : outcome string :=
  (_stream_ <- Expression_insert
                 (insert (insert EmptyString
                    (dquote ++ expr_text ++ dquote)) " (") _expr_ ;;
   Value (insert _stream_ ")"))%outcome.

(** Lines 151 to 155 of the macro: the [if] statement that tests
    [_expr_] and reports. *)
Definition METASSERT_if {State : Type} {OS : Ostream State} {Rest : Type}
    {Lhs Rhs : Type} {D : Operator}
    `{Streamable Lhs} `{Streamable Rhs} `{Applicable (op D) Lhs Rhs}
    (_expr_ : Expression Lhs Rhs D)
    (expr_text : string) (FILE : string) (LINE : unsigned)
    : Run State Rest unit :=
  (failed <- lift (operator_not _expr_) ;;
   if failed then
     msg <- lift (failure_message expr_text _expr_) ;;
     AssertFail msg FILE LINE
   else ret tt)%run.

(** An expression object seen after the full-expression that made it:
    the temporaries its members refer to are gone. *)
Definition Expression_after_full_expression {Lhs Rhs : Type} {D : Operator}
    (e : Expression Lhs Rhs D) : Expression Lhs Rhs D :=
  mkExpression (after_full_expression (m_lhs e))
               (after_full_expression (m_rhs e)) (m_op e).

(** [METASSERT(expr)] where [expr] is the token sequence [a op b].  Since
    [->*] binds tighter than each of the ten operators,
    [metassert::Build()->*a op b] is [(metassert::Build()->*a) op b].
    Line 150, [auto _expr_ = (...).GetExpression();], copies the object
    that the returned reference refers to; then comes the [if].
    [expr_text] is [#expr], [FILE] is [__FILE__], [LINE] is [__LINE__]. *)
Definition METASSERT {State : Type} {OS : Ostream State} {Rest : Type}
    {Lhs Rhs : Type}
    `{Streamable Lhs} `{Streamable Rhs}
    (a : ref Lhs) (D : Operator) `{Applicable (op D) Lhs Rhs} (b : ref Rhs)
    (expr_text : string) (FILE : string) (LINE : unsigned)
    : Run State Rest unit :=
  (_expr_ <- lift (read (ExpressionBuilder.GetExpression
                           (operator_ D
                              (operator_arrow_star Build_object a) b))) ;;
   METASSERT_if (Expression_after_full_expression _expr_)
     expr_text FILE LINE)%run.

(* ------------------------------------------------------------------ *)
(** ** Objects and worlds used in statements *)

(** A reference to a variable holding [x]; a reference bound to a
    temporary holding [x]. *)
Definition variable {T : Type} (x : T) : ref T := Ref x Named.

(** An expression object constructed directly,
    [Expression<Lhs, Rhs, name<Lhs, Rhs>> e(a, b, name<Lhs, Rhs>())],
    on two variables. *)
Definition expression {Lhs Rhs : Type} (a : Lhs) (D : Operator) (b : Rhs)
    : Expression Lhs Rhs D :=
  mkExpression (variable a) (variable b) (@functor_object D).

(** A world with nothing written yet and [std::cout] as it starts. *)
Definition fresh : World basefield unit := mkWorld EmptyString dec tt.

(** The world after one line [text] on standard output. *)
Definition reported {State Rest : Type} (text : string) (w : World State Rest)
    : World State Rest :=
  mkWorld (cout w ++ text ++ endl_text) (cout_state w) (rest w).

(** What [AssertFail] appends to a stream in state [s], and the state it
    leaves. *)
Definition AssertFail_output {State : Type} {OS : Ostream State}
    (s : State) (msg file : string) (line : unsigned) : string * State :=
  let (t1, s1) := put_chars s "Failed: " in
  let (t2, s2) := put_chars s1 msg in
  let (t3, s3) := put_chars s2 ", in file " in
  let (t4, s4) := put_chars s3 file in
  let (t5, s5) := put_chars s4 " line " in
  let (t6, s6) := put_unsigned s5 line in
  let (t7, s7) := put_endl s6 in
  (t1 ++ t2 ++ t3 ++ t4 ++ t5 ++ t6 ++ t7, s7).

(** The statement completes and standard output is as it was. *)
Definition silent {State Rest : Type}
    (m : Run State Rest unit) (w : World State Rest) : Prop :=
  exists w', m w = Value (tt, w') /\ cout w' = cout w.

(** The statement completes and has appended text ending a line. *)
Definition reports {State Rest : Type}
    (m : Run State Rest unit) (w : World State Rest) : Prop :=
  exists w' l, m w = Value (tt, w') /\ cout w' = cout w ++ l ++ endl_text.

(* ------------------------------------------------------------------ *)
(** ** What the specification says, as definitions *)

(** The diagnostic of the specification's section 6:
    [Failed: "<expr source text>" (<lhs> <op> <rhs>), in file <file> line <line>] *)
Definition diagnostic_line
    (expr_text lhs op_text rhs file line : string) : string :=
  "Failed: " ++ dquote ++ expr_text ++ dquote
    ++ " (" ++ lhs ++ " " ++ op_text ++ " " ++ rhs ++ ")"
    ++ ", in file " ++ file ++ " line " ++ line.

(** Applying the operator to the two operands directly, and reading the
    result as a truth value. *)
Definition direct_truth (tok : Token) {T1 T2 : Type} `{Applicable tok T1 T2}
    (a : T1) (b : T2) : outcome bool :=
  match apply tok a b with
  | Value r => Value (to_bool tok r)
  | Undefined u => Undefined u
  end.

(** The ten operator tokens the specification lists, in its order. *)
Definition supported_tokens : list string :=
  ["+"; "-"; "*"; "/"; "=="; "!="; "<"; "<="; ">"; ">="].

(* ------------------------------------------------------------------ *)
(** ** Facts about text *)

Module TextFacts.

Lemma append_assoc (s1 s2 s3 : string) :
  (s1 ++ s2) ++ s3 = s1 ++ (s2 ++ s3).
Proof.
  induction s1 as [|c s1 IH]; simpl; [reflexivity | now rewrite IH].
Qed.

Lemma append_empty_r (s : string) : s ++ EmptyString = s.
Proof.
  induction s as [|c s IH]; simpl; [reflexivity | now rewrite IH].
Qed.

Lemma append_same_l (s t : string) : s ++ t = s -> t = EmptyString.
Proof.
  induction s as [|c s IH]; simpl; intros H; [exact H|].
  injection H as H. auto.
Qed.

Lemma append_inv_l (s t1 t2 : string) : s ++ t1 = s ++ t2 -> t1 = t2.
Proof.
  induction s as [|c s IH]; simpl; intros H; [exact H|].
  injection H as H. auto.
Qed.

Lemma append_endl_nonempty (l : string) : l ++ endl_text <> EmptyString.
Proof. destruct l; discriminate. Qed.

Lemma newlines_append (s1 s2 : string) :
  newlines (s1 ++ s2) = newlines s1 + newlines s2.
Proof.
  induction s1 as [|c s1 IH]; simpl; [reflexivity | rewrite IH; lia].
Qed.

Lemma one_line_newlines (out : string) : one_line out -> newlines out = 1.
Proof.
  intros [l [-> Hl]]. rewrite newlines_append, Hl. reflexivity.
Qed.

Lemma occurs_in_front (needle post : string) :
  occurs_in needle (needle ++ post).
Proof. exists EmptyString, post. reflexivity. Qed.

Lemma occurs_in_whole (needle : string) : occurs_in needle needle.
Proof.
  exists EmptyString, EmptyString. simpl. now rewrite append_empty_r.
Qed.

Lemma occurs_in_append_l (needle s t : string) :
  occurs_in needle t -> occurs_in needle (s ++ t).
Proof.
  intros [pre [post ->]]. exists (s ++ pre), post.
  now rewrite append_assoc.
Qed.

Lemma newlines_digits (d : Decimal.uint) :
  newlines (DecimalString.NilEmpty.string_of_uint d) = 0.
Proof.
  induction d; simpl; auto.
Qed.

Lemma newlines_decimal_of_unsigned (n : N) :
  newlines (decimal_of_unsigned n) = 0.
Proof.
  unfold decimal_of_unsigned, DecimalString.NilZero.string_of_uint.
  destruct (N.to_uint n); try reflexivity; apply newlines_digits.
Qed.

Lemma newlines_decimal_of_int (z : Z) :
  newlines (decimal_of_int z) = 0.
Proof.
  unfold decimal_of_int, DecimalString.NilZero.string_of_int.
  destruct (Z.to_int z) as [d|d];
    unfold DecimalString.NilZero.string_of_uint.
  - destruct d; try reflexivity; apply newlines_digits.
  - change (newlines
              (String "-"
                 (match d with
                  | Decimal.Nil => "0"
                  | _ => DecimalString.NilEmpty.string_of_uint d
                  end)) = 0).
    simpl. destruct d; try reflexivity; apply newlines_digits.
Qed.

Lemma newlines_stringize (tok : Token) : newlines (stringize tok) = 0.
Proof. destruct tok; reflexivity. Qed.

Lemma diagnostic_line_newlines
    (expr_text lhs op_text rhs file line : string) :
  newlines (diagnostic_line expr_text lhs op_text rhs file line)
  = newlines expr_text + newlines lhs + newlines op_text + newlines rhs
    + newlines file + newlines line.
Proof.
  unfold diagnostic_line.
  repeat (rewrite newlines_append; simpl). lia.
Qed.

Lemma diagnostic_line_operands
    (expr_text lhs op_text rhs file line : string) :
  let l := diagnostic_line expr_text lhs op_text rhs file line in
  occurs_in lhs l /\ occurs_in rhs l /\ occurs_in line l.
Proof.
  unfold diagnostic_line. cbv zeta. repeat split.
  - do 5 apply occurs_in_append_l. apply occurs_in_front.
  - do 9 apply occurs_in_append_l. apply occurs_in_front.
  - do 14 apply occurs_in_append_l. apply occurs_in_whole.
Qed.

End TextFacts.

Import TextFacts.

(* ------------------------------------------------------------------ *)
(** ** Streams *)

Lemma plain_dec : plain dec.
Proof. repeat split. Qed.

Section Stream.

Context {State : Type} {OS : Ostream State} {Rest : Type}.

Lemma AssertFail_run (msg : std_string) (file : string) (line : unsigned)
    (w : World State Rest) :
  AssertFail msg file line w
  = Value (tt, mkWorld
      (cout w ++ fst (AssertFail_output (cout_state w) msg file line))
      (snd (AssertFail_output (cout_state w) msg file line))
      (rest w)).
Proof.
  unfold AssertFail, AssertFail_output, bind, cout_chars, cout_unsigned,
    cout_endl, cout_put.
  destruct (put_chars (cout_state w) "Failed: ") as [t1 s1]. simpl.
  destruct (put_chars s1 msg) as [t2 s2]. simpl.
  destruct (put_chars s2 ", in file ") as [t3 s3]. simpl.
  destruct (put_chars s3 file) as [t4 s4]. simpl.
  destruct (put_chars s4 " line ") as [t5 s5]. simpl.
  destruct (put_unsigned s5 line) as [t6 s6]. simpl.
  destruct (put_endl s6) as [t7 s7]. simpl.
  now rewrite !append_assoc.
Qed.

Lemma AssertFail_output_plain (s : State) (msg file : string)
    (line : unsigned) :
  plain s ->
  AssertFail_output s msg file line
  = ("Failed: " ++ msg ++ ", in file " ++ file ++ " line "
       ++ decimal_of_unsigned line ++ endl_text, s).
Proof.
  intros (Hc & Hu & He). unfold AssertFail_output.
  now rewrite !Hc, Hu, He.
Qed.

Lemma AssertFail_plain (msg : std_string) (file : string) (line : unsigned)
    (w : World State Rest) :
  plain (cout_state w) ->
  AssertFail msg file line w
  = Value (tt, mkWorld
      (cout w ++ "Failed: " ++ msg ++ ", in file " ++ file ++ " line "
         ++ decimal_of_unsigned line ++ endl_text)
      (cout_state w) (rest w)).
Proof.
  intros Hp. rewrite AssertFail_run, AssertFail_output_plain by exact Hp.
  reflexivity.
Qed.

End Stream.

(* ------------------------------------------------------------------ *)
(** ** How the parts of an assertion run *)

Section Assertion.

Context {State : Type} {OS : Ostream State} {Rest : Type}.
Context {Lhs Rhs : Type}.
Context {SL : Streamable Lhs} {SR : Streamable Rhs}.
Variable D : Operator.
Context {A : Applicable (op D) Lhs Rhs}.
Variables (a : Lhs) (b : Rhs).
Variables (expr_text FILE : string) (LINE : unsigned).

Lemma Expression_insert_expression (stream : string) :
  Expression_insert stream (expression a D b)
  = Value (stream ++ put_to a ++ " " ++ stringize (op D) ++ " " ++ put_to b).
Proof.
  unfold Expression_insert, expression, insert. simpl.
  now rewrite !append_assoc.
Qed.

Lemma Expression_ResultType_expression :
  Expression_ResultType (expression a D b) = apply (op D) a b.
Proof. reflexivity. Qed.

Lemma operator_not_expression :
  operator_not (expression a D b)
  = match apply (op D) a b with
    | Value r => Value (negb (to_bool (op D) r))
    | Undefined u => Undefined u
    end.
Proof. reflexivity. Qed.

Lemma failure_message_expression :
  failure_message expr_text (expression a D b)
  = Value (dquote ++ expr_text ++ dquote ++ " (" ++ put_to a ++ " "
             ++ stringize (op D) ++ " " ++ put_to b ++ ")").
Proof.
  unfold failure_message. rewrite Expression_insert_expression.
  unfold insert. simpl.
  repeat (rewrite ?append_assoc; simpl). reflexivity.
Qed.

Lemma METASSERT_if_run (w : World State Rest) :
  METASSERT_if (expression a D b) expr_text FILE LINE w
  = match apply (op D) a b with
    | Value r =>
        if to_bool (op D) r then Value (tt, w)
        else AssertFail
               (dquote ++ expr_text ++ dquote ++ " (" ++ put_to a ++ " "
                  ++ stringize (op D) ++ " " ++ put_to b ++ ")")
               FILE LINE w
    | Undefined u => Undefined u
    end.
Proof.
  unfold METASSERT_if, bind. rewrite operator_not_expression.
  destruct (apply (op D) a b) as [r|u]; [|reflexivity].
  unfold lift at 1.
  destruct (to_bool (op D) r); simpl negb; cbv iota; [reflexivity|].
  rewrite failure_message_expression. reflexivity.
Qed.

Lemma METASSERT_if_plain (w : World State Rest) :
  plain (cout_state w) ->
  METASSERT_if (expression a D b) expr_text FILE LINE w
  = match apply (op D) a b with
    | Value r =>
        Value (tt,
               if to_bool (op D) r then w
               else reported
                      (diagnostic_line expr_text (put_to a) (stringize (op D))
                         (put_to b) FILE (decimal_of_unsigned LINE)) w)
    | Undefined u => Undefined u
    end.
Proof.
  intros Hp. rewrite METASSERT_if_run.
  destruct (apply (op D) a b) as [r|u]; [|reflexivity].
  destruct (to_bool (op D) r); [reflexivity|].
  rewrite AssertFail_plain by exact Hp.
  unfold reported, diagnostic_line.
  repeat (rewrite ?append_assoc; simpl). reflexivity.
Qed.

Lemma METASSERT_undefined (ra : ref Lhs) (rb : ref Rhs)
    (w : World State Rest) :
  METASSERT ra D rb expr_text FILE LINE w = Undefined DanglingReference.
Proof. reflexivity. Qed.

End Assertion.

(* ------------------------------------------------------------------ *)
(** ** Failure and success of an assertion *)

(** An [int] is streamed as a decimal numeral, which holds no line
    terminator. *)
Lemma int_text_single_line (z : int) : newlines (put_to z) = 0.
Proof. apply newlines_decimal_of_int. Qed.

(** C1, as amended.  Take an expression object on two variables [a] and
    [b] whose streamed texts, like the expression text and the file path,
    hold no line terminator, and let [std::cout] be in a plain state.
    For every operator, if the expression evaluates to false, the [if]
    statement of [METASSERT] completes and appends exactly one line to
    standard output; that line contains the text of both operand values
    and the decimal line number.  (Nothing is said of how [METASSERT]
    obtains its expression object.) *)
Theorem METASSERT_failure_one_line
    {State : Type} {OS : Ostream State} {Rest : Type}
    {Lhs Rhs : Type} {SL : Streamable Lhs} {SR : Streamable Rhs}
    (a : Lhs) (D : Operator) {A : Applicable (op D) Lhs Rhs} (b : Rhs)
    (expr_text FILE : string) (LINE : unsigned) (w : World State Rest)
    (r : result_of (op D) Lhs Rhs) :
  plain (cout_state w) ->
  apply (op D) a b = Value r ->
  to_bool (op D) r = false ->
  newlines (put_to a) = 0 ->
  newlines (put_to b) = 0 ->
  newlines expr_text = 0 ->
  newlines FILE = 0 ->
  exists l,
    METASSERT_if (expression a D b) expr_text FILE LINE w
    = Value (tt, reported l w)
    /\ one_line (l ++ endl_text)
    /\ occurs_in (put_to a) l
    /\ occurs_in (put_to b) l
    /\ occurs_in (decimal_of_unsigned LINE) l.
Proof.
  intros Hp Hr Hfalse Ha Hb Htext Hfile.
  exists (diagnostic_line expr_text (put_to a) (stringize (op D)) (put_to b)
            FILE (decimal_of_unsigned LINE)).
  split.
  - rewrite METASSERT_if_plain by exact Hp. rewrite Hr, Hfalse. reflexivity.
  - split.
    + eexists. split; [reflexivity|].
      rewrite diagnostic_line_newlines, Ha, Hb, Htext, Hfile.
      now rewrite newlines_stringize, newlines_decimal_of_unsigned.
    + apply diagnostic_line_operands.
Qed.

Lemma METASSERT_failure_one_line_witness :
  plain (cout_state fresh)
  /\ apply EqEq (41%Z : int) (18467%Z : int) = Value false
  /\ exists l,
       METASSERT_if (expression (41%Z : int) Equal (18467%Z : int))
         "a == b" "main.cpp" 6%N fresh
       = Value (tt, reported l fresh)
       /\ one_line (l ++ endl_text)
       /\ occurs_in "41" l
       /\ occurs_in "18467" l
       /\ occurs_in "6" l.
Proof.
  split; [exact plain_dec|]. split; [reflexivity|].
  exact (METASSERT_failure_one_line (A := Applicable_int EqEq)
           (41%Z : int) Equal (18467%Z : int)
           "a == b" "main.cpp" 6%N fresh false
           plain_dec eq_refl eq_refl eq_refl eq_refl eq_refl eq_refl).
Defined.

(** C1, as the claim states it, fails.  Two [std::string] operands that
    differ make [a == b] false.  [METASSERT] on them is undefined, since
    it reads its expression object after that object was destroyed; and
    where the expression object is alive and one operand holds a line
    terminator, the output is two lines, not one. *)
Lemma METASSERT_failure_two_lines :
  let a : std_string := "x" ++ endl_text ++ "y" in
  let b : std_string := "z" in
  let out := diagnostic_line "a == b" a "==" b "main.cpp" "6" ++ endl_text in
  apply EqEq a b = Value false
  /\ METASSERT (variable a) Equal (variable b) "a == b" "main.cpp" 6%N fresh
     = Undefined DanglingReference
  /\ METASSERT_if (expression a Equal b) "a == b" "main.cpp" 6%N fresh
     = Value (tt, mkWorld out dec tt)
  /\ newlines out = 2
  /\ ~ one_line out.
Proof.
  cbv zeta. repeat split.
  intros H. apply one_line_newlines in H. discriminate H.
Qed.

(** C2.  [METASSERT(a == b)] with [a = 5] and [b = 5]: the expression is
    true and the claim expects silence, but the statement is undefined.
    Line 150 copies the expression object through the reference the
    builder returns, and that object was a local of the operator
    overload.  On a live expression object the [if] statement is
    silent. *)
Theorem METASSERT_true_expression_undefined
    {State : Type} {OS : Ostream State} {Rest : Type}
    (w : World State Rest) :
  apply EqEq (5%Z : int) (5%Z : int) = Value true
  /\ METASSERT (variable (5%Z : int)) Equal (variable (5%Z : int))
       "a == b" "main.cpp" 6%N w
     = Undefined DanglingReference
  /\ METASSERT_if (expression (5%Z : int) Equal (5%Z : int))
       "a == b" "main.cpp" 6%N w
     = Value (tt, w).
Proof. repeat split. Qed.

(** C3, as amended.  Take an expression object on two variables and let
    [std::cout] be in a plain state.  If the expression evaluates to
    false, what the [if] statement of [METASSERT] appends to standard
    output is the line
    [Failed: "<expr source text>" (<lhs> <op> <rhs>), in file <file> line <line>]
    followed by a line terminator, with the expression text as given, the
    streamed operand values, the operator token, the file path and the
    decimal line number.  (Nothing is said of how [METASSERT] obtains its
    expression object.) *)
Theorem METASSERT_failure_format
    {State : Type} {OS : Ostream State} {Rest : Type}
    {Lhs Rhs : Type} {SL : Streamable Lhs} {SR : Streamable Rhs}
    (a : Lhs) (D : Operator) {A : Applicable (op D) Lhs Rhs} (b : Rhs)
    (expr_text FILE : string) (LINE : unsigned) (w : World State Rest)
    (r : result_of (op D) Lhs Rhs) :
  plain (cout_state w) ->
  apply (op D) a b = Value r ->
  to_bool (op D) r = false ->
  exists w',
    METASSERT_if (expression a D b) expr_text FILE LINE w = Value (tt, w')
    /\ cout w'
       = cout w
         ++ diagnostic_line expr_text (put_to a) (stringize (op D)) (put_to b)
              FILE (decimal_of_unsigned LINE)
         ++ endl_text.
Proof.
  intros Hp Hr Hfalse. eexists.
  rewrite METASSERT_if_plain by exact Hp. rewrite Hr, Hfalse.
  split; reflexivity.
Qed.

Lemma METASSERT_failure_format_witness :
  plain (cout_state fresh)
  /\ apply Less (3%Z : int) (2%Z : int) = Value false
  /\ exists w',
       METASSERT_if (expression (3%Z : int) LessThan (2%Z : int))
         "a < b" "test.cpp" 12%N fresh
       = Value (tt, w')
       /\ cout w'
          = EmptyString ++ diagnostic_line "a < b" "3" "<" "2" "test.cpp" "12"
               ++ endl_text.
Proof.
  split; [exact plain_dec|]. split; [reflexivity|].
  exact (METASSERT_failure_format (A := Applicable_int Less)
           (3%Z : int) LessThan (2%Z : int)
           "a < b" "test.cpp" 12%N fresh false plain_dec eq_refl eq_refl).
Defined.

(** C3, as the claim states it, fails.  After [std::cout << std::hex] a
    failing assertion on line 26 ends in [line 1a]: [AssertFail] inserts
    the line number into the program's [std::cout] as that stream is.
    [METASSERT] itself is undefined on these operands as on all others. *)
Lemma METASSERT_failure_hexadecimal_line :
  let w := mkWorld EmptyString hex tt in
  let out :=
    diagnostic_line "a == b" "41" "==" "18467" "main.cpp" "1a" ++ endl_text in
  apply EqEq (41%Z : int) (18467%Z : int) = Value false
  /\ METASSERT (variable (41%Z : int)) Equal (variable (18467%Z : int))
       "a == b" "main.cpp" 26%N w
     = Undefined DanglingReference
  /\ METASSERT_if (expression (41%Z : int) Equal (18467%Z : int))
       "a == b" "main.cpp" 26%N w
     = Value (tt, mkWorld out hex tt)
  /\ out <> diagnostic_line "a == b" "41" "==" "18467" "main.cpp" "26"
              ++ endl_text.
Proof.
  cbv zeta. repeat split.
  apply String.eqb_neq. reflexivity.
Qed.

(* ------------------------------------------------------------------ *)
(** ** Capture *)

Lemma operators_tokens :
  map (fun D => stringize (op D)) operators = supported_tokens.
Proof. reflexivity. Qed.

(** C4.  [a <= b] with [a = 3] and [b = 2]: applied directly, the
    operator yields false.  The expression-capture mechanism yields no
    truth value: the reference that [GetExpression] returns for
    [Build()->*a <= b] refers to the local [expr] of the operator
    overload, destroyed when the overload returned, and reading it, as
    line 150 does, is undefined. *)
Theorem captured_expression_is_dead :
  direct_truth LessEq (3%Z : int) (2%Z : int) = Value false
  /\ alive (ExpressionBuilder.GetExpression
              (operator_ LessOrEqual
                 (operator_arrow_star Build_object (variable (3%Z : int)))
                 (variable (2%Z : int))))
     = false
  /\ outcome_bind
       (read (ExpressionBuilder.GetExpression
                (operator_ LessOrEqual
                   (operator_arrow_star Build_object (variable (3%Z : int)))
                   (variable (2%Z : int)))))
       operator_not
     = Undefined DanglingReference.
Proof. repeat split. Qed.

(** C5.  The ten operators are declared for the tokens
    [+ - * / == != < <= > >=], and for each of them the operator text
    rendered for an expression, and so the one in the failure
    diagnostic, is that token. *)
Theorem rendered_operator_is_token :
  map (fun D => stringize (op D)) operators = supported_tokens
  /\ (forall (D : Operator), put_to (@functor_object D) = stringize (op D))
  /\ (forall (Lhs Rhs : Type) (SL : Streamable Lhs) (SR : Streamable Rhs)
             (D : Operator) (a : Lhs) (b : Rhs) (stream : string),
        Expression_insert stream (expression a D b)
        = Value (stream ++ put_to a ++ " " ++ stringize (op D) ++ " "
                   ++ put_to b))
  /\ (forall (State : Type) (OS : Ostream State) (Rest : Type)
             (Lhs Rhs : Type) (SL : Streamable Lhs) (SR : Streamable Rhs)
             (D : Operator) (A : Applicable (op D) Lhs Rhs)
             (a : Lhs) (b : Rhs) (expr_text FILE : string) (LINE : unsigned)
             (w : World State Rest),
        METASSERT_if (expression a D b) expr_text FILE LINE w
        = match apply (op D) a b with
          | Value r =>
              if to_bool (op D) r then Value (tt, w)
              else AssertFail
                     (dquote ++ expr_text ++ dquote ++ " (" ++ put_to a
                        ++ " " ++ stringize (op D) ++ " " ++ put_to b ++ ")")
                     FILE LINE w
          | Undefined u => Undefined u
          end).
Proof.
  split; [reflexivity|]. split; [|split].
  - intros D. reflexivity.
  - intros. apply Expression_insert_expression.
  - intros. apply METASSERT_if_run.
Qed.

(** C6.  The worked examples: [METASSERT(a == b)] with [a = 41] and
    [b = 18467] on line 6 of main.cpp, and [METASSERT(a < b)] with
    [a = 3] and [b = 2], should each write their line.  Both statements
    are undefined: each reads its expression object after that object
    was destroyed. *)
Theorem worked_examples_undefined
    {State : Type} {OS : Ostream State} {Rest : Type}
    (w : World State Rest) (file : string) (N : unsigned) :
  METASSERT (variable (41%Z : int)) Equal (variable (18467%Z : int))
    "a == b" "main.cpp" 6%N w
  = Undefined DanglingReference
  /\ METASSERT (variable (3%Z : int)) LessThan (variable (2%Z : int))
       "a < b" file N w
     = Undefined DanglingReference.
Proof. split; reflexivity. Qed.

(* ------------------------------------------------------------------ *)
(** ** Effects *)

(** C7.  [METASSERT(a != b)] with [a = 1] and [b = 1] fails, and the
    claim expects the next statement to run after the diagnostic.  The
    statement is undefined before it tests anything, so nothing is
    guaranteed of what follows it. *)
Theorem METASSERT_failure_does_not_resume
    {State : Type} {OS : Ostream State} {Rest B : Type}
    (next : unit -> Run State Rest B) (w : World State Rest) :
  apply NotEq (1%Z : int) (1%Z : int) = Value false
  /\ bind (METASSERT (variable (1%Z : int)) NotEqual (variable (1%Z : int))
             "a != b" "main.cpp" 6%N) next w
     = Undefined DanglingReference.
Proof. split; reflexivity. Qed.


(* ------------------------------------------------------------------ *)
(** ** Division *)

Lemma int_range_bounds (z : Z) :
  int_range z = true <-> (- 2 ^ 31 <= z <= 2 ^ 31 - 1)%Z.
Proof.
  unfold int_range, INT_MIN, INT_MAX.
  rewrite andb_true_iff, !Z.leb_le. tauto.
Qed.

Lemma quot_int_range (a b : Z) :
  int_range a = true -> int_range b = true ->
  b <> 0%Z -> (a <> INT_MIN \/ b <> (-1)%Z) ->
  int_range (Z.quot a b) = true.
Proof.
  rewrite !int_range_bounds. unfold INT_MIN. intros Ha Hb Hb0 Hnot.
  destruct (Z.eq_dec b 1) as [->|Hone].
  { rewrite Z.quot_1_r. lia. }
  destruct (Z.eq_dec b (-1)) as [->|Hminus].
  { change (-1)%Z with (- (1))%Z. rewrite Z.quot_opp_r, Z.quot_1_r; lia. }
  assert (Habs : Z.abs (Z.quot a b) = (Z.abs a / Z.abs b)%Z).
  { rewrite <- Z.quot_abs by assumption.
    apply Z.quot_div_nonneg; lia. }
  assert (Hlt : (Z.abs a / Z.abs b < 2 ^ 31)%Z).
  { apply Z.div_lt_upper_bound; lia. }
  lia.
Qed.

(** C9, as amended.  [Divide] applies [/] with no guard: on [int] operands
    a zero right operand is undefined behaviour.  For a [Divide]
    expression object on two [int] variables [a], [b] with [b <> 0] the
    division-by-zero branch is not taken, and unless [a] is [INT_MIN] and
    [b] is [-1] the expression yields the quotient of [a] by [b]
    truncated toward zero. *)
Theorem Divide_int_defined (a b : int) :
  int_range a = true ->
  int_range b = true ->
  (b = 0%Z ->
   Expression_ResultType (expression a Divide b) = Undefined DivisionByZero)
  /\ (b <> 0%Z ->
      Expression_ResultType (expression a Divide b)
      <> Undefined DivisionByZero
      /\ (a <> INT_MIN \/ b <> (-1)%Z ->
          Expression_ResultType (expression a Divide b)
          = Value (Z.quot a b))).
Proof.
  intros Ha Hb. rewrite Expression_ResultType_expression.
  simpl apply. split.
  - intros ->. reflexivity.
  - intros Hb0. apply Z.eqb_neq in Hb0 as Hb0'. rewrite Hb0'. split.
    + unfold int_arith. destruct (int_range (Z.quot a b)); discriminate.
    + intros Hnot. unfold int_arith.
      now rewrite quot_int_range.
Qed.

Lemma Divide_int_defined_witness :
  int_range (-7)%Z = true
  /\ int_range 2%Z = true
  /\ 2%Z <> 0%Z
  /\ Expression_ResultType (expression ((-7)%Z : int) Divide (2%Z : int))
     = Value (-3)%Z.
Proof.
  assert (Hb0 : 2%Z <> 0%Z) by discriminate.
  assert (Hnot : (-7)%Z <> INT_MIN \/ 2%Z <> (-1)%Z) by (right; discriminate).
  split; [reflexivity|]. split; [reflexivity|]. split; [exact Hb0|].
  exact (proj2 (proj2 (Divide_int_defined (-7)%Z 2%Z eq_refl eq_refl) Hb0)
           Hnot).
Defined.

(** C9, as the claim states it, fails: [INT_MIN] and [-1] are [int]
    values, the right one is not zero, and a [Divide] expression on them
    yields no value, since the quotient overflows [int]. *)
Lemma Divide_int_overflow :
  int_range INT_MIN = true
  /\ int_range (-1)%Z = true
  /\ (-1)%Z <> 0%Z
  /\ Expression_ResultType (expression INT_MIN Divide ((-1)%Z : int))
     = Undefined SignedOverflow.
Proof.
  split; [reflexivity|]. split; [reflexivity|]. split; [discriminate|].
  reflexivity.
Qed.

(* ------------------------------------------------------------------ *)
(** ** Determinism *)




(* ------------------------------------------------------------------ *)
(** ** Silent and reporting runs *)

Lemma silent_not_reports {State Rest : Type}
    (m : Run State Rest unit) (w : World State Rest) :
  silent m w -> ~ reports m w.
Proof.
  intros [w1 [H1 Hc1]] [w2 [l [H2 Hc2]]].
  rewrite H1 in H2. injection H2 as <-.
  rewrite Hc1 in Hc2. symmetry in Hc2.
  apply append_same_l in Hc2. now apply append_endl_nonempty in Hc2.
Qed.

Section Verdict.

Context {State : Type} {OS : Ostream State} {Rest : Type}.
Context {Lhs Rhs : Type}.
Context {SL : Streamable Lhs} {SR : Streamable Rhs}.
Variable D : Operator.
Context {A : Applicable (op D) Lhs Rhs}.
Variables (a : Lhs) (b : Rhs).
Variables (expr_text FILE : string) (LINE : unsigned).
Variable w : World State Rest.
Hypothesis Hplain : plain (cout_state w).

Lemma METASSERT_if_silent_iff (r : result_of (op D) Lhs Rhs) :
  apply (op D) a b = Value r ->
  silent (METASSERT_if (expression a D b) expr_text FILE LINE) w
  <-> to_bool (op D) r = true.
Proof.
  intros Hr. split.
  - intros Hs. destruct (to_bool (op D) r) eqn:Hb; [reflexivity|].
    exfalso. apply (silent_not_reports _ _ Hs).
    eexists. eexists. rewrite METASSERT_if_plain by exact Hplain.
    rewrite Hr, Hb. split; reflexivity.
  - intros Hb. eexists. rewrite METASSERT_if_plain by exact Hplain.
    rewrite Hr, Hb. split; reflexivity.
Qed.

Lemma METASSERT_if_reports_iff (r : result_of (op D) Lhs Rhs) :
  apply (op D) a b = Value r ->
  reports (METASSERT_if (expression a D b) expr_text FILE LINE) w
  <-> to_bool (op D) r = false.
Proof.
  intros Hr. split.
  - intros Hrep. destruct (to_bool (op D) r) eqn:Hb; [|reflexivity].
    exfalso. refine (silent_not_reports _ _ _ Hrep).
    eexists. rewrite METASSERT_if_plain by exact Hplain.
    rewrite Hr, Hb. split; reflexivity.
  - intros Hb. eexists. eexists. rewrite METASSERT_if_plain by exact Hplain.
    rewrite Hr, Hb. split; reflexivity.
Qed.

Lemma METASSERT_if_undefined (u : undefined) :
  apply (op D) a b = Undefined u ->
  METASSERT_if (expression a D b) expr_text FILE LINE w = Undefined u.
Proof. intros Hu. now rewrite METASSERT_if_run, Hu. Qed.

End Verdict.

(* ------------------------------------------------------------------ *)
(** ** Assertions on [int] operands *)









(** X3.  For a [Divide] expression object on two [int] variables within
    range, evaluation is undefined in exactly two cases: division by zero
    when the right operand is zero, and overflow when [INT_MIN] is
    divided by [-1]. *)
Theorem Divide_int_undefined_iff (a b : int) :
  int_range a = true ->
  int_range b = true ->
  (Expression_ResultType (expression a Divide b) = Undefined DivisionByZero
   <-> b = 0%Z)
  /\ (Expression_ResultType (expression a Divide b) = Undefined SignedOverflow
      <-> a = INT_MIN /\ b = (-1)%Z)
  /\ Expression_ResultType (expression a Divide b)
     <> Undefined DanglingReference.
Proof.
  intros Ha Hb. rewrite Expression_ResultType_expression. simpl apply.
  destruct (Z.eqb_spec b 0) as [Hb0|Hb0].
  - split; [|split]; try discriminate.
    + split; [intros _; exact Hb0 | reflexivity].
    + split; [discriminate|].
      intros [_ Hm]. rewrite Hm in Hb0. discriminate.
  - unfold int_arith. destruct (int_range (Z.quot a b)) eqn:Hq.
    + split; [|split]; try discriminate.
      * split; [discriminate | contradiction].
      * split; [discriminate|].
        intros [Hmin Hm]. rewrite Hmin, Hm in Hq. discriminate.
    + split; [|split]; try discriminate.
      * split; [discriminate | contradiction].
      * split; [|reflexivity]. intros _.
        destruct (Z.eq_dec a INT_MIN) as [Hmin|Hmin].
        -- destruct (Z.eq_dec b (-1)) as [Hm|Hm]; [now split|].
           rewrite quot_int_range in Hq by auto. discriminate.
        -- rewrite quot_int_range in Hq by auto. discriminate.
Qed.

Lemma Divide_int_undefined_iff_witness :
  int_range INT_MIN = true
  /\ int_range (-1)%Z = true
  /\ Expression_ResultType (expression INT_MIN Divide ((-1)%Z : int))
     = Undefined SignedOverflow.
Proof.
  split; [reflexivity|]. split; [reflexivity|].
  exact (proj2 (proj1 (proj2 (Divide_int_undefined_iff INT_MIN (-1)%Z
                                eq_refl eq_refl)))
           (conj eq_refl eq_refl)).
Defined.

(* ------------------------------------------------------------------ *)
(** ** Lines of output *)

(** X4.  Take an expression object on two variables and let [std::cout]
    be in a plain state.  A failing assertion appends one line terminator
    more than the expression text, the two streamed operands and the
    file path hold together; so its output is exactly one line if and
    only if none of these four texts holds a line terminator. *)
Theorem METASSERT_failure_line_count
    {State : Type} {OS : Ostream State} {Rest : Type}
    {Lhs Rhs : Type} {SL : Streamable Lhs} {SR : Streamable Rhs}
    (a : Lhs) (D : Operator) {A : Applicable (op D) Lhs Rhs} (b : Rhs)
    (expr_text FILE : string) (LINE : unsigned) (w : World State Rest)
    (r : result_of (op D) Lhs Rhs) :
  plain (cout_state w) ->
  apply (op D) a b = Value r ->
  to_bool (op D) r = false ->
  exists l,
    METASSERT_if (expression a D b) expr_text FILE LINE w
    = Value (tt, reported l w)
    /\ newlines (l ++ endl_text)
       = 1 + newlines expr_text + newlines (put_to a) + newlines (put_to b)
         + newlines FILE
    /\ (one_line (l ++ endl_text)
        <-> newlines expr_text = 0 /\ newlines (put_to a) = 0
            /\ newlines (put_to b) = 0 /\ newlines FILE = 0).
Proof.
  intros Hp Hr Hfalse.
  exists (diagnostic_line expr_text (put_to a) (stringize (op D)) (put_to b)
            FILE (decimal_of_unsigned LINE)).
  assert (Hcount :
    newlines (diagnostic_line expr_text (put_to a) (stringize (op D))
                (put_to b) FILE (decimal_of_unsigned LINE) ++ endl_text)
    = 1 + newlines expr_text + newlines (put_to a) + newlines (put_to b)
      + newlines FILE).
  { rewrite newlines_append, diagnostic_line_newlines.
    rewrite newlines_stringize, newlines_decimal_of_unsigned.
    change (newlines endl_text) with 1. lia. }
  split; [|split].
  - rewrite METASSERT_if_plain by exact Hp. rewrite Hr, Hfalse. reflexivity.
  - exact Hcount.
  - split.
    + intros Hone. apply one_line_newlines in Hone.
      rewrite Hone in Hcount. repeat split; lia.
    + intros (Ht & Ha & Hb & Hf). eexists. split; [reflexivity|].
      rewrite newlines_append in Hcount.
      change (newlines endl_text) with 1 in Hcount. lia.
Qed.

Lemma METASSERT_failure_line_count_witness :
  plain (cout_state fresh)
  /\ apply EqEq ("x" ++ endl_text ++ "y" : std_string) ("z" : std_string)
     = Value false
  /\ exists l,
       METASSERT_if
         (expression ("x" ++ endl_text ++ "y" : std_string) Equal
            ("z" : std_string)) "a == b" "main.cpp" 6%N fresh
       = Value (tt, reported l fresh)
       /\ newlines (l ++ endl_text) = 2.
Proof.
  split; [exact plain_dec|]. split; [reflexivity|].
  destruct (METASSERT_failure_line_count
              (A := Applicable_std_string_EqEq)
              ("x" ++ endl_text ++ "y" : std_string) Equal ("z" : std_string)
              "a == b" "main.cpp" 6%N fresh false plain_dec eq_refl eq_refl)
    as [l [Hrun [Hcount _]]].
  exists l. split; [exact Hrun | exact Hcount].
Defined.

(** X5.  Take an expression object on two [int] variables and let
    [std::cout] be in a plain state.  Whatever the values and whichever
    operator is used, a failing assertion writes exactly one line, as
    long as the expression text and the file path hold no line
    terminator. *)
Theorem int_failure_one_line
    {State : Type} {OS : Ostream State} {Rest : Type}
    (a : int) (D : Operator) (b : int)
    (expr_text FILE : string) (LINE : unsigned) (w : World State Rest)
    (r : result_of (op D) int int) :
  plain (cout_state w) ->
  apply (op D) a b = Value r ->
  to_bool (op D) r = false ->
  newlines expr_text = 0 ->
  newlines FILE = 0 ->
  exists l,
    METASSERT_if (expression a D b) expr_text FILE LINE w
    = Value (tt, reported l w)
    /\ one_line (l ++ endl_text).
Proof.
  intros Hp Hr Hfalse Ht Hf.
  exists (diagnostic_line expr_text (put_to a) (stringize (op D)) (put_to b)
            FILE (decimal_of_unsigned LINE)).
  split.
  - rewrite METASSERT_if_plain by exact Hp. rewrite Hr, Hfalse. reflexivity.
  - eexists. split; [reflexivity|].
    rewrite diagnostic_line_newlines, Ht, Hf.
    rewrite !int_text_single_line.
    now rewrite newlines_stringize, newlines_decimal_of_unsigned.
Qed.

Lemma int_failure_one_line_witness :
  plain (cout_state fresh)
  /\ apply Slash (5%Z : int) (10%Z : int) = Value 0%Z
  /\ exists l,
       METASSERT_if (expression (5%Z : int) Divide (10%Z : int))
         "a / b" "main.cpp" 8%N fresh
       = Value (tt, reported l fresh)
       /\ one_line (l ++ endl_text).
Proof.
  split; [exact plain_dec|]. split; [reflexivity|].
  exact (int_failure_one_line (5%Z : int) Divide (10%Z : int)
           "a / b" "main.cpp" 8%N fresh 0%Z
           plain_dec eq_refl eq_refl eq_refl eq_refl).
Defined.

(* ------------------------------------------------------------------ *)
(** ** The table of operators *)

(** X8.  Every operator token is declared by exactly one entry of the
    operator list, and different tokens are rendered by different texts:
    the operator shown in a diagnostic determines which operator was
    captured. *)
Theorem operators_unambiguous :
  (forall tok : Token,
      exists D : Operator,
        In D operators /\ op D = tok
        /\ forall D' : Operator, In D' operators -> op D' = tok -> D' = D)
  /\ (forall t1 t2 : Token, stringize t1 = stringize t2 -> t1 = t2).
Proof.
  split.
  - intros tok.
    destruct tok;
      [ exists Add | exists Subtract | exists Multiply | exists Divide
      | exists Equal | exists NotEqual | exists LessThan
      | exists LessOrEqual | exists GreaterThan | exists GreaterOrEqual ];
      (split; [simpl; tauto|]); (split; [reflexivity|]);
      intros D' HIn Hop; simpl in HIn;
      repeat (destruct HIn as [<-|HIn];
              [first [reflexivity | discriminate Hop]|]);
      contradiction.
  - intros t1 t2. destruct t1, t2; simpl; intros H;
      first [reflexivity | discriminate H].
Qed.

(* ------------------------------------------------------------------ *)
(** ** Assertions on [std::string] operands *)



(* ------------------------------------------------------------------ *)
(** ** Difference and inequality *)

(** X13.  Take expression objects on two [int] variables and let
    [std::cout] be in a plain state in both worlds.  When the difference
    of the operands is representable, the assertions [a - b] and
    [a != b] have the same verdict.  When it is not, evaluating the
    first is undefined while the second is still silent. *)
Theorem Subtract_agrees_with_NotEqual
    {State : Type} {OS : Ostream State} {Rest : Type}
    (a b : int)
    (expr_text FILE : string) (LINE : unsigned)
    (expr_text' FILE' : string) (LINE' : unsigned)
    (w w' : World State Rest) :
  plain (cout_state w) ->
  plain (cout_state w') ->
  (int_range (a - b) = true ->
   (silent (METASSERT_if (expression a Subtract b) expr_text FILE LINE) w
    <-> silent (METASSERT_if (expression a NotEqual b)
                  expr_text' FILE' LINE') w')
   /\ (reports (METASSERT_if (expression a Subtract b) expr_text FILE LINE) w
       <-> reports (METASSERT_if (expression a NotEqual b)
                      expr_text' FILE' LINE') w'))
  /\ (int_range (a - b) = false ->
      METASSERT_if (expression a Subtract b) expr_text FILE LINE w
      = Undefined SignedOverflow
      /\ silent (METASSERT_if (expression a NotEqual b)
                   expr_text' FILE' LINE') w').
Proof.
  intros Hp Hp'.
  pose proof (METASSERT_if_silent_iff (A := Applicable_int NotEq) NotEqual a b
                expr_text' FILE' LINE' w' Hp' (negb (a =? b)%Z) eq_refl)
    as Hne.
  pose proof (METASSERT_if_reports_iff (A := Applicable_int NotEq) NotEqual a b
                expr_text' FILE' LINE' w' Hp' (negb (a =? b)%Z) eq_refl)
    as Hner.
  assert (Hzero : (a - b =? 0)%Z = (a =? b)%Z).
  { destruct (Z.eqb_spec a b) as [Hab|Hab].
    - apply Z.eqb_eq. rewrite Hab. apply Z.sub_diag.
    - apply Z.eqb_neq. intros H. apply Hab. now apply Z.sub_move_0_r. }
  split.
  - intros Hrange.
    assert (Hsub : apply (op Subtract) a b = Value (a - b)%Z).
    { simpl. unfold int_arith. now rewrite Hrange. }
    split.
    + eapply iff_trans;
        [exact (METASSERT_if_silent_iff (A := Applicable_int Minus)
                  Subtract a b expr_text FILE LINE w Hp (a - b)%Z Hsub)|].
      apply iff_sym. eapply iff_trans; [exact Hne|].
      simpl. now rewrite Hzero.
    + eapply iff_trans;
        [exact (METASSERT_if_reports_iff (A := Applicable_int Minus)
                  Subtract a b expr_text FILE LINE w Hp (a - b)%Z Hsub)|].
      apply iff_sym. eapply iff_trans; [exact Hner|].
      simpl. now rewrite Hzero.
  - intros Hrange. split.
    + apply METASSERT_if_undefined. simpl. unfold int_arith.
      now rewrite Hrange.
    + apply Hne. simpl. rewrite <- Hzero.
      destruct (Z.eqb_spec (a - b) 0) as [Hz|Hz]; [|reflexivity].
      rewrite Hz in Hrange. discriminate Hrange.
Qed.

Lemma Subtract_agrees_with_NotEqual_witness :
  plain (cout_state fresh)
  /\ int_range (7 - 7)%Z = true
  /\ (reports (METASSERT_if (expression (7%Z : int) Subtract (7%Z : int))
                 "a - b" "main.cpp" 3%N) fresh
      <-> reports (METASSERT_if (expression (7%Z : int) NotEqual (7%Z : int))
                     "a != b" "main.cpp" 4%N) fresh)
  /\ int_range (INT_MIN - 1)%Z = false
  /\ METASSERT_if (expression INT_MIN Subtract (1%Z : int))
       "a - b" "main.cpp" 3%N fresh
     = Undefined SignedOverflow.
Proof.
  split; [exact plain_dec|]. split; [reflexivity|]. split.
  - exact (proj2 (proj1 (Subtract_agrees_with_NotEqual (7%Z : int) (7%Z : int)
                           "a - b" "main.cpp" 3%N "a != b" "main.cpp" 4%N
                           fresh fresh plain_dec plain_dec) eq_refl)).
  - split; [reflexivity|].
    exact (proj1 (proj2 (Subtract_agrees_with_NotEqual INT_MIN (1%Z : int)
                           "a - b" "main.cpp" 3%N "a != b" "main.cpp" 4%N
                           fresh fresh plain_dec plain_dec) eq_refl)).
Defined.

(* ------------------------------------------------------------------ *)
(** ** Lifetimes *)


